(** * HeteroNorm: a shallow embedding of
      [torch_geometric/nn/norm/hetero_norm.py]

    The file defines one class, [HeteroNorm(torch.nn.Module)], with the
    methods [__init__], [reset_parameters], [forward] and [__repr__].
    Everything the class computes with (tensors, the functional batch
    normalisation, sub-modules) belongs to the host framework; the model
    keeps that part abstract in the class [Framework] and embeds the
    Python of the four methods statement by statement: attribute reads and
    writes on [self], global name resolution, exceptions, and the order in
    which sub-expressions are evaluated. *)

From Stdlib Require Import ZArith NArith String Ascii List Bool Lia PrimFloat.
From stdpp Require Import base option gmap strings list pretty.

Local Open Scope string_scope.
Local Open Scope Z_scope.

(** ** Python strings and [str.lower] *)

(** A [str] is modelled by its UTF-8 bytes.  On a string made of ASCII
    characters only, [str.lower] maps ['A'..'Z'] to ['a'..'z'] and leaves
    the rest alone; on any other string the result is given by the Unicode
    case tables, which the interpreter supplies ([unicode_lower] below). *)

Definition is_ascii (c : ascii) : bool := (N_of_ascii c <? 128)%N.

Definition ascii_lower (c : ascii) : ascii :=
  let n := N_of_ascii c in
  if ((65 <=? n) && (n <=? 90))%N then ascii_of_N (n + 32) else c.

Definition ascii_upper (c : ascii) : ascii :=
  let n := N_of_ascii c in
  if ((97 <=? n) && (n <=? 122))%N then ascii_of_N (n - 32) else c.

Definition is_lower_letter (c : ascii) : bool :=
  let n := N_of_ascii c in ((97 <=? n) && (n <=? 122))%N.

Fixpoint str_map (f : ascii -> ascii) (s : string) : string :=
  match s with
  | EmptyString => EmptyString
  | String c s' => String (f c) (str_map f s')
  end.

Fixpoint str_forall (p : ascii -> bool) (s : string) : bool :=
  match s with
  | EmptyString => true
  | String c s' => p c && str_forall p s'
  end.

Definition str_lower (unicode_lower : string -> string) (s : string) : string :=
  if str_forall is_ascii s then str_map ascii_lower s else unicode_lower s.

(** [s] is a capitalisation of [name]: same letters, each one either as in
    [name] or in upper case. *)
Fixpoint capitalization (s name : string) : Prop :=
  match s, name with
  | EmptyString, EmptyString => True
  | String c s', String d name' =>
      (c = d \/ c = ascii_upper d) /\ capitalization s' name'
  | _, _ => False
  end.

(** [x in l] on a list of strings. *)
Definition str_in (x : string) (l : list string) : bool :=
  existsb (String.eqb x) l.

(** ** Exceptions and results *)

Inductive exn :=
| ValueError (msg : string)
| NameError (name : string)
| AttributeError (attr : string)
| IndexError (msg : string)
| TypeError (msg : string)
| RuntimeError (msg : string).

Inductive result (A : Type) :=
| Ok (a : A)
| Raise (e : exn).
Arguments Ok {A} a.
Arguments Raise {A} e.

Definition is_ValueError {A} (r : result A) : Prop :=
  exists msg, r = Raise (ValueError msg).

(** ** Values *)

(** The Python values the class handles.  An object of the framework (a
    sub-module) is its class name and its data attributes. *)
#[warnings="-register-all"]
Inductive value (Tensor Metadata : Type) :=
| VNone
| VBool (b : bool)
| VInt (z : Z)
| VFloat (f : float)
| VStr (s : string)
| VTensor (t : Tensor)
| VMeta (m : Metadata)
| VObj (cls : string) (fields : gmap string (value Tensor Metadata)).
Arguments VNone {Tensor Metadata}.
Arguments VBool {Tensor Metadata} b.
Arguments VInt {Tensor Metadata} z.
Arguments VFloat {Tensor Metadata} f.
Arguments VStr {Tensor Metadata} s.
Arguments VTensor {Tensor Metadata} t.
Arguments VMeta {Tensor Metadata} m.
Arguments VObj {Tensor Metadata} cls fields.

(** ** The host framework *)

(** What the class takes from outside the file.  [F_batch_norm] is
    [torch.nn.functional.batch_norm(input, running_mean, running_var,
    weight, bias, training, momentum, eps)]: it returns its output together
    with the contents of the two statistics tensors after the call, which it
    may update in place.  [call_obj m args] is the call [m(args...)] and
    [invoke m name args] is [m.name(args...)] on a framework object; both
    return the object as the call leaves it. *)
Class Framework := {
  Tensor : Type;
  Metadata : Type;
  tshape : Tensor -> list Z;
  unicode_lower : string -> string;
  F_batch_norm :
    value Tensor Metadata -> value Tensor Metadata -> value Tensor Metadata ->
    value Tensor Metadata -> value Tensor Metadata -> bool -> float ->
    value Tensor Metadata ->
    result (value Tensor Metadata * value Tensor Metadata * value Tensor Metadata);
  ToHeteroLinear : list (value Tensor Metadata) -> result (value Tensor Metadata);
  truth_of : value Tensor Metadata -> result bool;
  call_obj :
    value Tensor Metadata -> list (value Tensor Metadata) ->
    result (value Tensor Metadata * value Tensor Metadata);
  invoke :
    value Tensor Metadata -> string -> list (value Tensor Metadata) ->
    result (value Tensor Metadata * value Tensor Metadata);
  format_value : value Tensor Metadata -> result string
}.

Abbreviation val := (value Tensor Metadata).
Abbreviation bn_sig :=
  (val -> val -> val -> val -> val -> bool -> float -> val ->
   result (val * val * val)).

Section Model.
Context {fw : Framework}.

(** ** Global names *)

(** What a global name of the module can be bound to. *)
Inductive gobj :=
| GTorch (batch_norm : bn_sig)           (* the package [torch] *)
| GClass (new : list val -> result val)  (* a class, called positionally *)
| GName.                                 (* a name the methods never load *)

(** The module's namespace once its top-level statements have run: the
    four imports and the class statement.  No statement binds [Linear]. *)
Definition module_globals : gmap string gobj :=
  {[ "torch" := GTorch F_batch_norm;
     "Tensor" := GName;
     "ToHeteroLinear" := GClass ToHeteroLinear;
     "Metadata" := GName;
     "HeteroNorm" := GName ]}.

(** ** State, trace and the execution monad *)

Inductive event :=
| EvNew (cls : string) (args : list val)
| EvBatchNorm (x rm rv w b : val) (training : bool) (momentum : float) (eps : val)
| EvCall (callee : val) (args : list val)
| EvInvoke (recv : val) (meth : string) (args : list val).

(** The attributes of [self] and the calls made into the framework so
    far.  [torch.nn.Module] keeps sub-modules, parameters and plain
    attributes in separate dictionaries behind one attribute namespace;
    the model has the one namespace. *)
Record state := {
  self_dict : gmap string val;
  trace : list event
}.

Definition blank : state := {| self_dict := ∅; trace := [] |}.

Definition py (A : Type) : Type := state -> result A * state.

Definition ret {A} (a : A) : py A := fun s => (Ok a, s).
Definition raise {A} (e : exn) : py A := fun s => (Raise e, s).
Definition bind {A B} (m : py A) (k : A -> py B) : py B :=
  fun s =>
    match m s with
    | (Ok a, s') => k a s'
    | (Raise e, s') => (Raise e, s')
    end.
Definition lift {A} (r : result A) : py A := fun s => (r, s).

Local Notation "'let*' x ':=' m 'in' k" := (bind m (fun x => k))
  (at level 10, x name, m at level 100, k at level 200).
Local Notation "m '>>' k" := (bind m (fun _ => k))
  (at level 65, right associativity).

Definition emit (e : event) : py unit :=
  fun s => (Ok tt, {| self_dict := self_dict s; trace := trace s ++ [e] |}).

(** [self.name] *)
Definition getattr_self (name : string) : py val :=
  fun s =>
    match self_dict s !! name with
    | Some v => (Ok v, s)
    | None => (Raise (AttributeError name), s)
    end.

(** [self.name = v] *)
Definition setattr_self (name : string) (v : val) : py unit :=
  fun s => (Ok tt, {| self_dict := <[name := v]> (self_dict s); trace := trace s |}).

(** [v.name] for a data attribute of a framework object.  The names read
    this way are [running_mean], [running_var], [weight], [bias], [eps]
    and [num_features]; no value other than an object has any of them. *)
Definition getattr (v : val) (name : string) : result val :=
  match v with
  | VObj _ fields =>
      match fields !! name with
      | Some a => Ok a
      | None => Raise (AttributeError name)
      end
  | _ => Raise (AttributeError name)
  end.

(** A global name, looked up when the statement runs. *)
Definition load_global (g : gmap string gobj) (name : string) : py gobj :=
  fun s =>
    match g !! name with
    | Some o => (Ok o, s)
    | None => (Raise (NameError name), s)
    end.

(** A call [name(args...)] of a global already loaded. *)
Definition call_global (name : string) (o : gobj) (args : list val) : py val :=
  match o with
  | GClass new => emit (EvNew name args) >> lift (new args)
  | _ => raise (TypeError "object is not callable")
  end.

(** Truth value of a Python object. *)
Definition truthy (v : val) : result bool :=
  match v with
  | VNone => Ok false
  | VBool b => Ok b
  | VInt z => Ok (negb (z =? 0))
  | VFloat f => Ok (negb (PrimFloat.eqb f 0%float))
  | VStr s => Ok (negb (String.eqb s ""))
  | VMeta _ => Ok true
  | VTensor _ | VObj _ _ => truth_of v
  end.

(** [x.size(0)] *)
Definition size0 (x : Tensor) : result Z :=
  match tshape x with
  | [] => Raise (IndexError "dimension specified as 0 but tensor has no dimensions")
  | d :: _ => Ok d
  end.


(** ** The class *)

(** The arguments of [HeteroNorm(...)], typed as the signature annotates
    them. *)
Record init_args := InitArgs {
  in_channels : Z;
  norm_type : string;
  metadata : Metadata;
  eps : float;
  momentum : float;
  affine : bool;
  track_running_stats : bool;
  allow_single_element : bool
}.

Definition norm_types : list string := ["batchnorm"; "instancenorm"; "layernorm"].

Definition dq : string := String "034"%char EmptyString.

Definition norm_type_msg : string :=
  "Please choose norm type from " ++ dq ++ "BatchNorm" ++ dq ++ ", "
  ++ dq ++ "InstanceNorm" ++ dq ++ ", " ++ dq ++ "LayerNorm" ++ dq.

Definition single_element_msg : string :=
  "'allow_single_element' requires 'track_running_stats' to be set to `True`".

(** [norm_type.lower() in ["batchnorm", "instancenorm", "layernorm"]] *)
Definition norm_type_ok (a : init_args) : bool :=
  str_in (str_lower unicode_lower (norm_type a)) norm_types.

(** The arguments pass both checks (lines 39 and 41). *)
Definition valid_args (a : init_args) : bool :=
  norm_type_ok a && negb (allow_single_element a && negb (track_running_stats a)).

(** [super().__init__()]: [torch.nn.Module.__init__] puts the module in
    training mode and creates its (empty) registries. *)
Definition Module_init : py unit := setattr_self "training" (VBool true).

(** [HeteroNorm.__init__], lines 34-46.  In line 45 the callee
    [ToHeteroLinear] is loaded first, then its first argument is
    evaluated: [Linear] is loaded, [self.in_channels] is read twice, and
    [Linear] is called; then [metadata]; then [ToHeteroLinear] is called. *)
Definition __init__ (g : gmap string gobj) (a : init_args) : py unit :=
  Module_init >>
  if negb (norm_type_ok a)
  then raise (ValueError norm_type_msg)
  else if allow_single_element a && negb (track_running_stats a)
  then raise (ValueError single_element_msg)
  else
    setattr_self "in_channels" (VInt (in_channels a)) >>
    let* thl := load_global g "ToHeteroLinear" in
    let* lin := load_global g "Linear" in
    let* c1 := getattr_self "in_channels" in
    let* c2 := getattr_self "in_channels" in
    let* l := call_global "Linear" lin [c1; c2] in
    let* hl := call_global "ToHeteroLinear" thl [l; VMeta (metadata a)] in
    setattr_self "hetero_linear" hl >>
    setattr_self "allow_single_element" (VBool (allow_single_element a)).

(** The object held by [self.name] as a call left it.  The attribute is
    updated where it is; nothing is bound that was not bound before. *)
Definition mutate_self (name : string) (v : val) : py unit :=
  fun s => (Ok tt, {| self_dict := alter (fun _ => v) name (self_dict s);
                      trace := trace s |}).

(** [self.module.reset_parameters()], lines 48-50. *)
Definition reset_parameters : py val :=
  let* m := getattr_self "module" in
  emit (EvInvoke m "reset_parameters" []) >>
  let* r := lift (invoke m "reset_parameters" []) in
  mutate_self "module" (snd r) >>
  ret VNone.

(** [torch.nn.functional.batch_norm], reached from the global [torch]. *)
Definition load_batch_norm (g : gmap string gobj) : py bn_sig :=
  let* t := load_global g "torch" in
  match t with
  | GTorch bn => ret bn
  | _ => raise (AttributeError "nn")
  end.

(** The statistics tensors as the call left them: the tensors passed are
    the ones [self.module] holds, so an in-place update shows there. *)
Definition store_stats (rm rv : val) (m : val) : val :=
  match m with
  | VObj cls fields =>
      VObj cls (alter (fun _ => rv) "running_var"
                 (alter (fun _ => rm) "running_mean" fields))
  | _ => m
  end.

Definition update_stats (rm rv : val) : py unit :=
  fun s => (Ok tt, {| self_dict := alter (store_stats rm rv) "module" (self_dict s);
                      trace := trace s |}).

(** The condition of line 57: [and] evaluates [x.size(0) <= 1] only when
    [self.allow_single_element] is true. *)
Definition forward_guard (x : Tensor) : py bool :=
  let* ase := getattr_self "allow_single_element" in
  let* t := lift (truthy ase) in
  if t then
    let* n := lift (size0 x) in
    ret (n <=? 1)
  else ret false.

(** Lines 58-67: the callee, then the eight arguments from left to right,
    then the call. *)
Definition forward_single_element (g : gmap string gobj) (x : Tensor) : py val :=
  let* bn := load_batch_norm g in
  let* m1 := getattr_self "module" in
  let* rm := lift (getattr m1 "running_mean") in
  let* m2 := getattr_self "module" in
  let* rv := lift (getattr m2 "running_var") in
  let* m3 := getattr_self "module" in
  let* w := lift (getattr m3 "weight") in
  let* m4 := getattr_self "module" in
  let* b := lift (getattr m4 "bias") in
  let* m5 := getattr_self "module" in
  let* e := lift (getattr m5 "eps") in
  emit (EvBatchNorm (VTensor x) rm rv w b false 0%float e) >>
  let* r := lift (bn (VTensor x) rm rv w b false 0%float e) in
  update_stats (snd (fst r)) (snd r) >>
  ret (fst (fst r)).

(** Line 68: [self.module(x)]. *)
Definition forward_delegate (x : Tensor) : py val :=
  let* m := getattr_self "module" in
  emit (EvCall m [VTensor x]) >>
  let* r := lift (call_obj m [VTensor x]) in
  mutate_self "module" (snd r) >>
  ret (fst r).

(** [HeteroNorm.forward], lines 52-68. *)
Definition forward (g : gmap string gobj) (x : Tensor) : py val :=
  let* c := forward_guard x in
  if c then forward_single_element g x else forward_delegate x.

(** [HeteroNorm.__repr__], lines 70-71.  [self.__class__.__name__] is
    ["HeteroNorm"] on an instance of the class itself. *)
Definition __repr__ : py string :=
  let* m := getattr_self "module" in
  let* n := lift (getattr m "num_features") in
  let* t := lift (format_value n) in
  ret ("HeteroNorm" ++ "(" ++ t ++ ")").

(** ** Forms used in the statements *)

(** The state [super().__init__()] leaves. *)
Definition after_super (s : state) : state :=
  {| self_dict := <["training" := VBool true]> (self_dict s); trace := trace s |}.

(** The state after one more call into the framework. *)
Definition logged (e : event) (s : state) : state :=
  {| self_dict := self_dict s; trace := trace s ++ [e] |}.

(** Lines 44-46 run step by step: what [__init__] does once both checks
    have passed ([init_valid] below proves it equal to [__init__]). *)
Definition construct (g : gmap string gobj) (c : Z) (m : Metadata) (ase : bool)
    (s : state) : result unit * state :=
  let s1 := {| self_dict := <["in_channels" := VInt c]> (self_dict s);
               trace := trace s |} in
  match g !! "ToHeteroLinear" with
  | None => (Raise (NameError "ToHeteroLinear"), s1)
  | Some thl =>
      match g !! "Linear" with
      | None => (Raise (NameError "Linear"), s1)
      | Some (GClass lin) =>
          let s2 := logged (EvNew "Linear" [VInt c; VInt c]) s1 in
          match lin [VInt c; VInt c] with
          | Raise e => (Raise e, s2)
          | Ok l =>
              match thl with
              | GClass new =>
                  let s3 := logged (EvNew "ToHeteroLinear" [l; VMeta m]) s2 in
                  match new [l; VMeta m] with
                  | Raise e => (Raise e, s3)
                  | Ok hl =>
                      (Ok tt,
                       {| self_dict :=
                            <["allow_single_element" := VBool ase]>
                              (<["hetero_linear" := hl]> (self_dict s1));
                          trace := trace s3 |})
                  end
              | _ => (Raise (TypeError "object is not callable"), s2)
              end
          end
      | Some _ => (Raise (TypeError "object is not callable"), s1)
      end
  end.

(** The two ways into line 68: the special case is switched off, or the
    batch has more than one element. *)
Definition large_or_disabled (x : Tensor) (s : state) : Prop :=
  self_dict s !! "allow_single_element" = Some (VBool false) \/
  (self_dict s !! "allow_single_element" = Some (VBool true) /\
   exists d rest, tshape x = d :: rest /\ 1 < d).

(** The framework's contract for evaluation mode: with [training=False]
    the statistics tensors are read and not written. *)
Definition eval_mode_preserves_stats (bn : bn_sig) : Prop :=
  forall x rm rv w b mom e out rm' rv',
    bn x rm rv w b false mom e = Ok (out, rm', rv') -> rm' = rm /\ rv' = rv.

(** [ev] is a call of the functional batch normalisation on [x] with
    [training=False] and [momentum=0.0]. *)
Definition eval_call (x : Tensor) (ev : event) : Prop :=
  exists rm rv w b e, ev = EvBatchNorm (VTensor x) rm rv w b false 0%float e.

(** [self.hetero_linear = v], as a state change. *)
Definition with_hetero_linear (v : val) (s : state) : state :=
  {| self_dict := <["hetero_linear" := v]> (self_dict s); trace := trace s |}.

(** A computation that neither reads nor writes [self.hetero_linear]. *)
Definition ignores_hetero_linear {A} (m : py A) : Prop :=
  forall v s,
    m (with_hetero_linear v s) = (fst (m s), with_hetero_linear v (snd (m s))).

End Model.

(** ** A concrete framework, for running the model *)

(** Tensors known by their shape, which is all the class looks at.  In
    evaluation mode the batch normalisation leaves the statistics as they
    are; in training mode it overwrites them. *)
Module Shapes.

Definition tensor : Type := list Z.
Definition meta : Type := list string * list (string * string * string).

Definition batch_norm (x rm rv w b : value tensor meta) (training : bool)
    (momentum : float) (e : value tensor meta)
  : result (value tensor meta * value tensor meta * value tensor meta) :=
  match rm, rv with
  | VTensor _, VTensor _ => if training then Ok (x, x, x) else Ok (x, rm, rv)
  | _, _ =>
      if training then Ok (x, rm, rv)
      else Raise (ValueError "Expected running_mean and running_var to be not None when training=False")
  end.

Definition to_hetero_linear (args : list (value tensor meta))
  : result (value tensor meta) :=
  match args with
  | [m; t] => Ok (VObj "ToHeteroLinear" {[ "module" := m; "types" := t ]})
  | _ => Raise (TypeError "ToHeteroLinear takes two arguments")
  end.

Definition linear (args : list (value tensor meta)) : result (value tensor meta) :=
  match args with
  | [VInt i; VInt o] =>
      Ok (VObj "Linear" {[ "in_channels" := VInt i; "out_channels" := VInt o ]})
  | _ => Raise (TypeError "Linear takes two integers")
  end.

#[warnings="-inexact-float"]
Definition framework : Framework := {|
  Tensor := tensor;
  Metadata := meta;
  tshape := fun t => t;
  unicode_lower := fun s => s;
  F_batch_norm := batch_norm;
  ToHeteroLinear := to_hetero_linear;
  truth_of := fun _ => Ok true;
  call_obj := fun m args =>
    match args with
    | [x] => Ok (x, m)
    | _ => Raise (TypeError "forward takes one argument")
    end;
  invoke := fun m _ _ => Ok (VNone, m);
  format_value := fun v =>
    match v with
    | VInt z => Ok (pretty z)
    | _ => Ok "<object>"
    end
|}.

(** The module's namespace with the name [Linear] supplied from outside. *)
Definition with_Linear : gmap string (@gobj framework) :=
  <["Linear" := @GClass framework linear]> (@module_globals framework).

Definition graph_meta : meta :=
  (["paper"; "author"], [("author", "writes", "paper")]).

(** [HeteroNorm(16, "BatchNorm", graph_meta)] and the same with
    [allow_single_element=True]. *)
#[warnings="-inexact-float"]
Definition args_default : @init_args framework :=
  @InitArgs framework 16 "BatchNorm" graph_meta 1e-5%float 0.1%float true true false.

#[warnings="-inexact-float"]
Definition args_single : @init_args framework :=
  @InitArgs framework 16 "BatchNorm" graph_meta 1e-5%float 0.1%float true true true.

(** A one-dimensional batch normalisation over 16 features, as
    [torch.nn.BatchNorm1d(16)] holds its data. *)
#[warnings="-inexact-float"]
Definition bn16 : @value (@Tensor framework) (@Metadata framework) :=
  VObj "BatchNorm1d"
    {[ "running_mean" := VTensor [16];
       "running_var" := VTensor [16];
       "weight" := VTensor [16];
       "bias" := VTensor [16];
       "eps" := VFloat 1e-5%float;
       "num_features" := VInt 16 ]}.

(** The objects the two constructor calls build when [Linear] resolves. *)
Definition built_default : @state framework :=
  snd (@__init__ framework with_Linear args_default blank).

Definition built_single : @state framework :=
  snd (@__init__ framework with_Linear args_single blank).

Definition dispatcher : @value (@Tensor framework) (@Metadata framework) :=
  VObj "ToHeteroLinear"
    {[ "module" := VObj "Linear" {[ "in_channels" := VInt 16; "out_channels" := VInt 16 ]};
       "types" := VMeta graph_meta ]}.

(** The object the call leaves under the module's own namespace. *)
Definition left_single : @state framework :=
  snd (@__init__ framework module_globals args_single blank).

(** The same objects after [self.module = bn16] from outside the class. *)
Definition patched_default : @state framework :=
  snd (setattr_self "module" bn16 built_default).

Definition patched_single : @state framework :=
  snd (setattr_self "module" bn16 built_single).

(** Two calls that differ in the five arguments read by the checks only. *)
#[warnings="-inexact-float"]
Definition args_layer : @init_args framework :=
  @InitArgs framework 16 "layernorm" graph_meta 1e-3%float 0.5%float false false false.

(** Calls that fail a check. *)
#[warnings="-inexact-float"]
Definition args_group : @init_args framework :=
  @InitArgs framework 16 "GroupNorm" graph_meta 1e-5%float 0.1%float true true false.

#[warnings="-inexact-float"]
Definition args_untracked : @init_args framework :=
  @InitArgs framework 16 "BatchNorm" graph_meta 1e-5%float 0.1%float true false true.

End Shapes.

(** ** Forms used in the further statements *)

Section Frames.
Context {fw : Framework}.

(** The attributes line 58-67 read from [self.module], in the order the
    arguments are evaluated. *)
Definition stat_names : list string :=
  ["running_mean"; "running_var"; "weight"; "bias"; "eps"].

(** The first of them an object lacks. *)
Definition first_missing (fields : gmap string val) : option string :=
  find (fun n => match fields !! n with None => true | Some _ => false end)
       stat_names.

(** [s'] differs from [s] at most in what [self.module] holds: every other
    attribute reads the same, and [module] is bound in one exactly when it
    is in the other. *)
Definition same_but_module (s s' : state) : Prop :=
  (forall name, name <> "module" -> self_dict s' !! name = self_dict s !! name) /\
  (is_Some (self_dict s' !! "module") <-> is_Some (self_dict s !! "module")).

Definition touches_only_module {A} (m : py A) : Prop :=
  forall s, same_but_module s (snd (m s)).

(** A computation that leaves the object and the trace as they are. *)
Definition read_only {A} (m : py A) : Prop := forall s, snd (m s) = s.


(** What a call into the framework gives back to the caller: its first
    component, or its exception. *)
Definition returned {A B} (r : result (A * B)) : result A :=
  match r with
  | Ok p => Ok (fst p)
  | Raise e => Raise e
  end.

End Frames.

(** Further concrete values, for running the model. *)
Module MoreShapes.
Import Shapes.

(** A [Linear] that refuses negative sizes, as the framework's does. *)
Definition strict_linear (args : list (value tensor meta)) : result (value tensor meta) :=
  match args with
  | [VInt i; VInt o] =>
      if (i <? 0) || (o <? 0)
      then Raise (RuntimeError "Trying to create tensor with negative dimension")
      else Ok (VObj "Linear" {[ "in_channels" := VInt i; "out_channels" := VInt o ]})
  | _ => Raise (TypeError "Linear takes two integers")
  end.

Definition with_strict_Linear : gmap string (@gobj framework) :=
  <["Linear" := @GClass framework strict_linear]> (@module_globals framework).

#[warnings="-inexact-float"]
Definition args_negative : @init_args framework :=
  @InitArgs framework (-1) "BatchNorm" graph_meta 1e-5%float 0.1%float true true false.

(** The default [eps] of the framework's normalisation layers. *)
#[warnings="-inexact-float"]
Definition eps16 : float := 1e-5%float.

(** A layer normalisation over 16 features, as [torch.nn.LayerNorm(16)]
    holds its data: no running statistics. *)
#[warnings="-inexact-float"]
Definition ln16 : @value (@Tensor framework) (@Metadata framework) :=
  VObj "LayerNorm"
    {[ "weight" := VTensor [16];
       "bias" := VTensor [16];
       "eps" := VFloat 1e-5%float ]}.

Definition layer_patched : @state framework :=
  snd (setattr_self "module" ln16 built_single).

End MoreShapes.

(** * Properties *)


(** ** Strings *)

Lemma lower_of_capital (c d : ascii) :
  is_lower_letter d = true -> c = d \/ c = ascii_upper d ->
  is_ascii c = true /\ ascii_lower c = d.
Proof.
  intros Hd Hc.
  destruct d as [[] [] [] [] [] [] [] []]; try discriminate Hd;
    destruct Hc as [-> | ->]; split; reflexivity.
Qed.

Lemma capitalization_lower (s name : string) :
  str_forall is_lower_letter name = true -> capitalization s name ->
  str_forall is_ascii s = true /\ str_map ascii_lower s = name.
Proof.
  revert name. induction s as [|c s IH]; intros [|d name] Hn Hs; simpl in *;
    try contradiction; [split; reflexivity|].
  apply andb_prop in Hn as [Hd Hn]. destruct Hs as [Hc Hs].
  destruct (lower_of_capital c d Hd Hc) as [Ha Hl].
  destruct (IH name Hn Hs) as [Ha' Hl'].
  rewrite Ha, Ha', Hl, Hl'. split; reflexivity.
Qed.

Lemma str_lower_capitalization (ul : string -> string) (s name : string) :
  str_forall is_lower_letter name = true -> capitalization s name ->
  str_lower ul s = name.
Proof.
  intros Hn Hs. destruct (capitalization_lower s name Hn Hs) as [Ha Hl].
  unfold str_lower. rewrite Ha. exact Hl.
Qed.

Lemma str_in_In (x : string) (l : list string) : str_in x l = true <-> In x l.
Proof.
  unfold str_in. rewrite existsb_exists. split.
  - intros (y & Hy & He). apply String.eqb_eq in He. subst. exact Hy.
  - intros H. exists x. split; [exact H | apply String.eqb_refl].
Qed.

Lemma norm_types_lower (name : string) :
  In name norm_types -> str_forall is_lower_letter name = true.
Proof.
  unfold norm_types. simpl. intros [<- | [<- | [<- | []]]]; reflexivity.
Qed.

Section Properties.
Context {fw : Framework}.

(** *** The module's namespace *)
Lemma module_globals_Linear : module_globals !! "Linear" = None.
Proof. reflexivity. Qed.

Lemma module_globals_ToHeteroLinear :
  module_globals !! "ToHeteroLinear" = Some (GClass ToHeteroLinear).
Proof. reflexivity. Qed.

Lemma module_globals_torch : module_globals !! "torch" = Some (GTorch F_batch_norm).
Proof. reflexivity. Qed.

Lemma Module_init_run (s : state) : Module_init s = (Ok tt, after_super s).
Proof. reflexivity. Qed.

Lemma valid_args_true (a : init_args) :
  valid_args a = true <->
  norm_type_ok a = true /\ allow_single_element a && negb (track_running_stats a) = false.
Proof.
  unfold valid_args. rewrite andb_true_iff, negb_true_iff. tauto.
Qed.

(** A call that fails validation stops at the [raise]. *)
Lemma init_invalid (g : gmap string gobj) (a : init_args) (s : state) :
  valid_args a = false ->
  __init__ g a s =
    (Raise (ValueError (if norm_type_ok a then single_element_msg else norm_type_msg)),
     after_super s).
Proof.
  unfold valid_args, __init__, bind. rewrite Module_init_run.
  destruct (norm_type_ok a); simpl; [|reflexivity].
  destruct (allow_single_element a && negb (track_running_stats a)); simpl;
    [reflexivity | discriminate].
Qed.

Lemma init_valid (g : gmap string gobj) (a : init_args) (s : state) :
  valid_args a = true ->
  __init__ g a s =
    construct g (in_channels a) (metadata a) (allow_single_element a) (after_super s).
Proof.
  intros [Hn Hs]%valid_args_true.
  unfold __init__, construct, bind. rewrite Module_init_run, Hn, Hs. simpl.
  unfold load_global, getattr_self, setattr_self, call_global, bind, emit, lift, raise.
  simpl.
  destruct (g !! "ToHeteroLinear") as [thl|]; [|reflexivity].
  destruct (g !! "Linear") as [[bn|lin|]|]; try reflexivity;
    repeat (simpl; rewrite lookup_insert_eq); try reflexivity.
  simpl. destruct (lin _) as [l|e]; [|reflexivity].
  destruct thl as [bn|new|]; reflexivity.
Qed.

(** *** Running the primitives *)

Lemma getattr_self_bound (n : string) (v : val) (s : state) :
  self_dict s !! n = Some v -> getattr_self n s = (Ok v, s).
Proof. unfold getattr_self. intros ->. reflexivity. Qed.

Lemma getattr_self_unbound (n : string) (s : state) :
  self_dict s !! n = None -> getattr_self n s = (Raise (AttributeError n), s).
Proof. unfold getattr_self. intros ->. reflexivity. Qed.

Lemma bind_ok {A B} (m : py A) (k : A -> py B) (s s' : state) (a : A) :
  m s = (Ok a, s') -> bind m k s = k a s'.
Proof. unfold bind. intros ->. reflexivity. Qed.

Lemma bind_raise {A B} (m : py A) (k : A -> py B) (s s' : state) (e : exn) :
  m s = (Raise e, s') -> bind m k s = (Raise e, s').
Proof. unfold bind. intros ->. reflexivity. Qed.

Lemma load_batch_norm_bound (g : gmap string gobj) (bn : bn_sig) (s : state) :
  g !! "torch" = Some (GTorch bn) -> load_batch_norm g s = (Ok bn, s).
Proof.
  intros H. unfold load_batch_norm, load_global, bind. rewrite H. reflexivity.
Qed.

(** *** Methods on an object without the attribute [module] *)

Lemma reset_parameters_unbound (s : state) :
  self_dict s !! "module" = None ->
  reset_parameters s = (Raise (AttributeError "module"), s).
Proof.
  intros H. unfold reset_parameters.
  apply bind_raise, getattr_self_unbound, H.
Qed.

Lemma repr_unbound (s : state) :
  self_dict s !! "module" = None ->
  __repr__ s = (Raise (AttributeError "module"), s).
Proof.
  intros H. unfold __repr__. apply bind_raise, getattr_self_unbound, H.
Qed.

Lemma forward_delegate_unbound (x : Tensor) (s : state) :
  self_dict s !! "module" = None ->
  forward_delegate x s = (Raise (AttributeError "module"), s).
Proof.
  intros H. unfold forward_delegate. apply bind_raise, getattr_self_unbound, H.
Qed.

Lemma forward_single_element_unbound (g : gmap string gobj) (bn : bn_sig)
    (x : Tensor) (s : state) :
  g !! "torch" = Some (GTorch bn) ->
  self_dict s !! "module" = None ->
  forward_single_element g x s = (Raise (AttributeError "module"), s).
Proof.
  intros Hg H. unfold forward_single_element.
  rewrite (bind_ok _ _ _ _ _ (load_batch_norm_bound g bn s Hg)).
  apply bind_raise, getattr_self_unbound, H.
Qed.

(** *** The condition of line 57 *)

Lemma forward_guard_true (x : Tensor) (s : state) (d : Z) (rest : list Z) :
  self_dict s !! "allow_single_element" = Some (VBool true) ->
  tshape x = d :: rest ->
  forward_guard x s = (Ok (d <=? 1), s).
Proof.
  intros Ha Hx. unfold forward_guard.
  rewrite (bind_ok _ _ _ _ _ (getattr_self_bound _ _ _ Ha)).
  unfold bind, lift, ret, size0. simpl. rewrite Hx. reflexivity.
Qed.

Lemma forward_guard_false (x : Tensor) (s : state) :
  self_dict s !! "allow_single_element" = Some (VBool false) ->
  forward_guard x s = (Ok false, s).
Proof.
  intros Ha. unfold forward_guard.
  rewrite (bind_ok _ _ _ _ _ (getattr_self_bound _ _ _ Ha)). reflexivity.
Qed.

Lemma forward_single_element_branch (g : gmap string gobj) (x : Tensor) (s : state)
    (d : Z) (rest : list Z) :
  self_dict s !! "allow_single_element" = Some (VBool true) ->
  tshape x = d :: rest -> d <= 1 ->
  forward g x s = forward_single_element g x s.
Proof.
  intros Ha Hx Hd. unfold forward.
  rewrite (bind_ok _ _ _ _ _ (forward_guard_true x s d rest Ha Hx)).
  apply Z.leb_le in Hd. rewrite Hd. reflexivity.
Qed.

Lemma forward_delegate_branch (g : gmap string gobj) (x : Tensor) (s : state) :
  large_or_disabled x s -> forward g x s = forward_delegate x s.
Proof.
  intros [Ha | [Ha (d & rest & Hx & Hd)]]; unfold forward.
  - rewrite (bind_ok _ _ _ _ _ (forward_guard_false x s Ha)). reflexivity.
  - rewrite (bind_ok _ _ _ _ _ (forward_guard_true x s d rest Ha Hx)).
    apply Z.leb_gt in Hd. rewrite Hd. reflexivity.
Qed.

Lemma forward_unbound_flag (g : gmap string gobj) (x : Tensor) (s : state) :
  self_dict s !! "allow_single_element" = None ->
  forward g x s = (Raise (AttributeError "allow_single_element"), s).
Proof.
  intros H. unfold forward, forward_guard.
  apply bind_raise, bind_raise, getattr_self_unbound, H.
Qed.

(** *** The two branches on an object that has [module] *)

Lemma forward_delegate_bound (x : Tensor) (s : state) (m : val) :
  self_dict s !! "module" = Some m ->
  forward_delegate x s =
    match call_obj m [VTensor x] with
    | Ok (out, m') =>
        (Ok out,
         {| self_dict := alter (fun _ => m') "module" (self_dict s);
            trace := trace s ++ [EvCall m [VTensor x]] |})
    | Raise e => (Raise e, logged (EvCall m [VTensor x]) s)
    end.
Proof.
  intros H. unfold forward_delegate.
  rewrite (bind_ok _ _ _ _ _ (getattr_self_bound _ _ _ H)).
  unfold bind, emit, lift, mutate_self, ret, logged. simpl.
  destruct (call_obj m [VTensor x]) as [[out m']|e]; reflexivity.
Qed.

Lemma forward_single_element_bound (g : gmap string gobj) (bn : bn_sig)
    (x : Tensor) (s : state) (cls : string) (fields : gmap string val)
    (rm rv w b e : val) :
  g !! "torch" = Some (GTorch bn) ->
  self_dict s !! "module" = Some (VObj cls fields) ->
  fields !! "running_mean" = Some rm ->
  fields !! "running_var" = Some rv ->
  fields !! "weight" = Some w ->
  fields !! "bias" = Some b ->
  fields !! "eps" = Some e ->
  forward_single_element g x s =
    match bn (VTensor x) rm rv w b false 0%float e with
    | Ok (out, rm', rv') =>
        (Ok out,
         {| self_dict := alter (store_stats rm' rv') "module" (self_dict s);
            trace := trace s ++ [EvBatchNorm (VTensor x) rm rv w b false 0%float e] |})
    | Raise err =>
        (Raise err, logged (EvBatchNorm (VTensor x) rm rv w b false 0%float e) s)
    end.
Proof.
  intros Hg Hm Hrm Hrv Hw Hb He. unfold forward_single_element.
  rewrite (bind_ok _ _ _ _ _ (load_batch_norm_bound g bn s Hg)).
  repeat (rewrite (bind_ok _ _ _ _ _ (getattr_self_bound _ _ _ Hm));
          unfold lift at 1, bind at 1; simpl getattr;
          rewrite ?Hrm, ?Hrv, ?Hw, ?Hb, ?He).
  unfold bind, emit, lift, update_stats, ret, logged. simpl.
  destruct (bn _ _ _ _ _ _ _ _) as [[[out rm'] rv']|err]; reflexivity.
Qed.

(** Either no call is made, or the object has what the call reads. *)
Lemma forward_single_element_cases (g : gmap string gobj) (bn : bn_sig)
    (x : Tensor) (s : state) :
  g !! "torch" = Some (GTorch bn) ->
  (exists err, forward_single_element g x s = (Raise err, s)) \/
  (exists cls fields rm rv w b e,
     self_dict s !! "module" = Some (VObj cls fields) /\
     fields !! "running_mean" = Some rm /\ fields !! "running_var" = Some rv /\
     fields !! "weight" = Some w /\ fields !! "bias" = Some b /\
     fields !! "eps" = Some e).
Proof.
  intros Hg.
  destruct (self_dict s !! "module") as [m|] eqn:Hm.
  2: { left. eexists. eapply forward_single_element_unbound; eassumption. }
  assert (Hstep : forall (k : val -> py val) (n : string),
             getattr m n = Raise (AttributeError n) ->
             bind (getattr_self "module") (fun m' => bind (lift (getattr m' n)) k) s
             = (Raise (AttributeError n), s)).
  { intros k n Hn. rewrite (bind_ok _ _ _ _ _ (getattr_self_bound _ _ _ Hm)).
    unfold bind, lift. rewrite Hn. reflexivity. }
  assert (Hok : forall (k : val -> py val) (n : string) (v : val),
             getattr m n = Ok v ->
             bind (getattr_self "module") (fun m' => bind (lift (getattr m' n)) k) s
             = k v s).
  { intros k n v Hn. rewrite (bind_ok _ _ _ _ _ (getattr_self_bound _ _ _ Hm)).
    unfold bind, lift. rewrite Hn. reflexivity. }
  unfold forward_single_element.
  rewrite (bind_ok _ _ _ _ _ (load_batch_norm_bound g bn s Hg)).
  destruct m as [| | | | | | |cls fields];
    try (left; eexists; apply Hstep; reflexivity).
  destruct (fields !! "running_mean") as [rm|] eqn:Hrm;
    [|left; eexists; apply Hstep; simpl; rewrite Hrm; reflexivity].
  rewrite (Hok _ _ rm) by (simpl; rewrite Hrm; reflexivity).
  destruct (fields !! "running_var") as [rv|] eqn:Hrv;
    [|left; eexists; apply Hstep; simpl; rewrite Hrv; reflexivity].
  rewrite (Hok _ _ rv) by (simpl; rewrite Hrv; reflexivity).
  destruct (fields !! "weight") as [w|] eqn:Hw;
    [|left; eexists; apply Hstep; simpl; rewrite Hw; reflexivity].
  rewrite (Hok _ _ w) by (simpl; rewrite Hw; reflexivity).
  destruct (fields !! "bias") as [b|] eqn:Hb;
    [|left; eexists; apply Hstep; simpl; rewrite Hb; reflexivity].
  rewrite (Hok _ _ b) by (simpl; rewrite Hb; reflexivity).
  destruct (fields !! "eps") as [e|] eqn:He;
    [|left; eexists; apply Hstep; simpl; rewrite He; reflexivity].
  right. exists cls, fields, rm, rv, w, b, e. auto 10.
Qed.

Lemma store_stats_same (cls : string) (fields : gmap string val) (rm rv : val) :
  fields !! "running_mean" = Some rm -> fields !! "running_var" = Some rv ->
  store_stats rm rv (VObj cls fields) = VObj cls fields.
Proof.
  intros Hrm Hrv. unfold store_stats. f_equal.
  rewrite (alter_id _ fields "running_mean") by (intros ? ?; congruence).
  apply alter_id. intros ? ?; congruence.
Qed.

(** *** Construction *)

Lemma construct_module (g : gmap string gobj) (c : Z) (m : Metadata) (ase : bool)
    (s s' : state) (r : result unit) :
  construct g c m ase s = (r, s') ->
  self_dict s' !! "module" = self_dict s !! "module".
Proof.
  unfold construct. intros H.
  repeat match type of H with
         | context [match ?t with _ => _ end] => destruct t
         end;
    injection H as _ <-; simpl; by rewrite ?lookup_insert_ne.
Qed.

Lemma construct_ok (g : gmap string gobj) (c : Z) (m : Metadata) (ase : bool)
    (s s' : state) :
  construct g c m ase s = (Ok tt, s') ->
  self_dict s' !! "allow_single_element" = Some (VBool ase).
Proof.
  unfold construct. intros H.
  repeat match type of H with
         | context [match ?t with _ => _ end] => destruct t
         end;
    try discriminate H.
  injection H as <-. simpl. apply lookup_insert_eq.
Qed.

(** [__init__] never binds [module], whatever the outcome. *)
Lemma init_module (g : gmap string gobj) (a : init_args) (s s' : state)
    (r : result unit) :
  __init__ g a s = (r, s') -> self_dict s' !! "module" = self_dict s !! "module".
Proof.
  destruct (valid_args a) eqn:Hv.
  - rewrite (init_valid g a s Hv). intros H%construct_module.
    rewrite H. simpl. by rewrite lookup_insert_ne.
  - rewrite (init_invalid g a s Hv). intros [= _ <-]. simpl.
    by rewrite lookup_insert_ne.
Qed.

(** Under the module's own namespace, a call that passes both checks
    stops at the name [Linear] in line 45: [in_channels] is assigned,
    [hetero_linear] and [allow_single_element] are not. *)
Lemma init_valid_NameError (a : init_args) (s : state) :
  valid_args a = true ->
  __init__ module_globals a s =
    (Raise (NameError "Linear"),
     {| self_dict := <["in_channels" := VInt (in_channels a)]> (self_dict (after_super s));
        trace := trace s |}).
Proof.
  intros Hv. rewrite (init_valid _ a s Hv). unfold construct.
  rewrite module_globals_ToHeteroLinear, module_globals_Linear. reflexivity.
Qed.

(** *** [forward] and the attribute [hetero_linear] *)

Lemma ignores_ret {A} (a : A) : ignores_hetero_linear (ret a).
Proof. intros v s. reflexivity. Qed.

Lemma ignores_raise {A} (e : exn) : ignores_hetero_linear (@raise _ A e).
Proof. intros v s. reflexivity. Qed.

Lemma ignores_lift {A} (r : result A) : ignores_hetero_linear (lift r).
Proof. intros v s. reflexivity. Qed.

Lemma ignores_emit (e : event) : ignores_hetero_linear (emit e).
Proof. intros v s. reflexivity. Qed.

Lemma ignores_bind {A B} (m : py A) (k : A -> py B) :
  ignores_hetero_linear m -> (forall a, ignores_hetero_linear (k a)) ->
  ignores_hetero_linear (bind m k).
Proof.
  intros Hm Hk v s. unfold bind. rewrite Hm.
  destruct (m s) as [[a|e] s']; simpl; [apply Hk | reflexivity].
Qed.

Lemma ignores_getattr_self (n : string) :
  n <> "hetero_linear" -> ignores_hetero_linear (getattr_self n).
Proof.
  intros Hn v s. unfold getattr_self, with_hetero_linear. simpl.
  rewrite lookup_insert_ne by congruence.
  destruct (self_dict s !! n); reflexivity.
Qed.

Lemma ignores_alter (f : val -> val) (n : string) :
  n <> "hetero_linear" ->
  ignores_hetero_linear
    (fun s => (Ok tt, {| self_dict := alter f n (self_dict s); trace := trace s |})).
Proof.
  intros Hn v s. unfold with_hetero_linear. simpl.
  rewrite alter_insert_ne by congruence. reflexivity.
Qed.

Lemma ignores_load_global (g : gmap string gobj) (n : string) :
  ignores_hetero_linear (load_global g n).
Proof. intros v s. unfold load_global. destruct (g !! n); reflexivity. Qed.

Ltac ignores :=
  repeat first
    [ apply ignores_ret | apply ignores_raise | apply ignores_lift
    | apply ignores_emit | apply ignores_load_global
    | apply ignores_getattr_self; discriminate
    | apply ignores_alter; discriminate
    | apply ignores_bind; [| intros ?]
    | match goal with
      | |- ignores_hetero_linear (if ?c then _ else _) => destruct c
      | |- ignores_hetero_linear (match ?t with _ => _ end) => destruct t
      end ].

(** [forward] gives the same result and makes the same calls whatever
    [self.hetero_linear] holds, and leaves it as it was. *)
Lemma forward_ignores_hetero_linear (g : gmap string gobj) (x : Tensor) :
  ignores_hetero_linear (forward g x).
Proof.
  unfold forward, forward_guard, forward_single_element, forward_delegate,
    load_batch_norm, update_stats, mutate_self.
  ignores.
Qed.

(** *** The claims *)

(** C3. [__init__] raises a [ValueError] exactly when the lower-cased
    [norm_type] is none of ["batchnorm"], ["instancenorm"], ["layernorm"],
    or [allow_single_element] is true while [track_running_stats] is
    false; and the string check accepts every capitalisation of the three
    names. *)
Theorem init_ValueError_iff (a : init_args) (s : state) :
  (is_ValueError (fst (__init__ module_globals a s)) <->
   ~ In (str_lower unicode_lower (norm_type a)) norm_types \/
   (allow_single_element a = true /\ track_running_stats a = false)) /\
  (forall name,
     In name norm_types -> capitalization (norm_type a) name ->
     In (str_lower unicode_lower (norm_type a)) norm_types).
Proof.
  split.
  - destruct (valid_args a) eqn:Hv.
    + rewrite (init_valid_NameError a s Hv). cbn [fst].
      apply valid_args_true in Hv as [Hn Hs].
      apply str_in_In in Hn. split.
      * intros [msg Hmsg]. discriminate Hmsg.
      * intros [Hno | [Ha Ht]]; [contradiction|].
        rewrite Ha, Ht in Hs. discriminate Hs.
    + rewrite (init_invalid _ a s Hv). cbn [fst]. split.
      * intros _. unfold valid_args in Hv.
        destruct (norm_type_ok a) eqn:Hn.
        -- right. simpl in Hv. apply negb_false_iff in Hv.
           apply andb_prop in Hv as [Ha Ht]. apply negb_true_iff in Ht. auto.
        -- left. intros Hin. apply str_in_In in Hin.
           unfold norm_type_ok in Hn. congruence.
      * intros _. eexists. reflexivity.
  - intros name Hin Hcap.
    rewrite (str_lower_capitalization _ _ name (norm_types_lower name Hin) Hcap).
    exact Hin.
Qed.

(** C5. A call that fails a check raises its [ValueError] with the object
    as [super().__init__()] left it: no call into the framework has been
    made (the trace is the one before the call), and no attribute other
    than the base class's own has been assigned. *)
Theorem init_validates_first (g : gmap string gobj) (a : init_args) (s : state) :
  valid_args a = false ->
  exists msg,
    __init__ g a s = (Raise (ValueError msg), snd (Module_init s)) /\
    trace (snd (Module_init s)) = trace s /\
    forall name, name <> "training" ->
      self_dict (snd (Module_init s)) !! name = self_dict s !! name.
Proof.
  intros Hv. eexists. split; [apply (init_invalid g a s Hv)|].
  split; [reflexivity|]. intros name Hname. simpl.
  apply lookup_insert_ne. congruence.
Qed.

(** C7. On the object [__init__] leaves, [reset_parameters] and
    [__repr__] raise [AttributeError] for [module] and change nothing;
    and when [__init__] has returned, so does [forward] outside the
    single-element case. *)
Theorem init_then_AttributeError (g : gmap string gobj) (a : init_args)
    (r : result unit) (s' : state) :
  __init__ g a blank = (r, s') ->
  reset_parameters s' = (Raise (AttributeError "module"), s') /\
  __repr__ s' = (Raise (AttributeError "module"), s') /\
  (r = Ok tt ->
   forall g' x,
     (allow_single_element a = false \/
      exists d rest, tshape x = d :: rest /\ 1 < d) ->
     forward g' x s' = (Raise (AttributeError "module"), s')).
Proof.
  intros Hinit.
  assert (Hm : self_dict s' !! "module" = None).
  { rewrite (init_module g a blank s' _ Hinit). reflexivity. }
  split; [exact (reset_parameters_unbound s' Hm)|].
  split; [exact (repr_unbound s' Hm)|].
  intros -> g' x Hx.
  assert (Ha : self_dict s' !! "allow_single_element"
               = Some (VBool (allow_single_element a))).
  { destruct (valid_args a) eqn:Hv.
    - rewrite (init_valid g a blank Hv) in Hinit. exact (construct_ok _ _ _ _ _ _ Hinit).
    - rewrite (init_invalid g a blank Hv) in Hinit. discriminate Hinit. }
  rewrite forward_delegate_branch; [exact (forward_delegate_unbound x s' Hm)|].
  unfold large_or_disabled. destruct Hx as [Hf | Hd].
  - left. rewrite Ha, Hf. reflexivity.
  - destruct (allow_single_element a); [right | left]; auto.
Qed.

(** C8. With [allow_single_element] true, a tensor whose first dimension
    is 0 passes the condition of line 57, and [forward] is the
    batch-normalisation branch of lines 58-67. *)
Theorem forward_empty_batch (g : gmap string gobj) (x : Tensor) (s : state)
    (rest : list Z) :
  self_dict s !! "allow_single_element" = Some (VBool true) ->
  tshape x = 0 :: rest ->
  forward_guard x s = (Ok true, s) /\
  forward g x s = forward_single_element g x s.
Proof.
  intros Ha Hx. split.
  - exact (forward_guard_true x s 0 rest Ha Hx).
  - apply (forward_single_element_branch g x s 0 rest Ha Hx). lia.
Qed.

(** C9. Two calls that pass the checks and agree on [in_channels],
    [metadata] and [allow_single_element] end in the same outcome and the
    same object, on which every method behaves the same. *)
Theorem init_reads_three_arguments (g : gmap string gobj) (a1 a2 : init_args)
    (s : state) :
  valid_args a1 = true -> valid_args a2 = true ->
  in_channels a1 = in_channels a2 ->
  metadata a1 = metadata a2 ->
  allow_single_element a1 = allow_single_element a2 ->
  __init__ g a1 s = __init__ g a2 s /\
  (forall g' x,
     forward g' x (snd (__init__ g a1 s)) = forward g' x (snd (__init__ g a2 s))) /\
  reset_parameters (snd (__init__ g a1 s)) = reset_parameters (snd (__init__ g a2 s)) /\
  __repr__ (snd (__init__ g a1 s)) = __repr__ (snd (__init__ g a2 s)).
Proof.
  intros H1 H2 Hc Hm Ha.
  assert (He : __init__ g a1 s = __init__ g a2 s).
  { rewrite (init_valid g a1 s H1), (init_valid g a2 s H2), Hc, Hm, Ha. reflexivity. }
  rewrite He. auto.
Qed.

(** One run of lines 58-67 on an object that has what the call reads. *)
Lemma forward_single_element_frame (g : gmap string gobj) (bn : bn_sig)
    (x : Tensor) (s : state) (cls : string) (fields : gmap string val)
    (rm rv w b e : val) :
  g !! "torch" = Some (GTorch bn) ->
  eval_mode_preserves_stats bn ->
  self_dict s !! "module" = Some (VObj cls fields) ->
  fields !! "running_mean" = Some rm -> fields !! "running_var" = Some rv ->
  fields !! "weight" = Some w -> fields !! "bias" = Some b ->
  fields !! "eps" = Some e ->
  self_dict (snd (forward_single_element g x s)) = self_dict s /\
  trace (snd (forward_single_element g x s)) =
    (trace s ++ [EvBatchNorm (VTensor x) rm rv w b false 0%float e])%list.
Proof.
  intros Hg Hbn Hm Hrm Hrv Hw Hb He.
  rewrite (forward_single_element_bound g bn x s cls fields rm rv w b e
             Hg Hm Hrm Hrv Hw Hb He).
  destruct (bn _ _ _ _ _ _ _ _) as [[[out rm'] rv']|err] eqn:Hcall;
    [|split; reflexivity].
  destruct (Hbn _ _ _ _ _ _ _ _ _ _ Hcall) as [-> ->].
  cbn [snd self_dict trace]. split; [|reflexivity].
  apply alter_id. intros m' Hm'. rewrite Hm in Hm'. injection Hm' as <-.
  exact (store_stats_same cls fields rm rv Hrm Hrv).
Qed.

(** The single-element case on an arbitrary object: the only call
    [forward] can make into the framework is the functional batch
    normalisation on [x] with [training=False] and [momentum=0.0]; it is
    made with the statistics the object stores whenever [module] has been
    bound to an object that has them; and, the framework leaving the
    statistics alone in evaluation mode, the attributes of the object are
    after the call what they were before. *)
Theorem forward_single_element_eval (g : gmap string gobj) (bn : bn_sig)
    (x : Tensor) (s : state) (d : Z) (rest : list Z) :
  g !! "torch" = Some (GTorch bn) ->
  eval_mode_preserves_stats bn ->
  self_dict s !! "allow_single_element" = Some (VBool true) ->
  tshape x = d :: rest -> d <= 1 ->
  self_dict (snd (forward g x s)) = self_dict s /\
  (exists evs,
     trace (snd (forward g x s)) = (trace s ++ evs)%list /\ Forall (eval_call x) evs) /\
  (forall cls fields rm rv w b e,
     self_dict s !! "module" = Some (VObj cls fields) ->
     fields !! "running_mean" = Some rm -> fields !! "running_var" = Some rv ->
     fields !! "weight" = Some w -> fields !! "bias" = Some b ->
     fields !! "eps" = Some e ->
     trace (snd (forward g x s)) =
       (trace s ++ [EvBatchNorm (VTensor x) rm rv w b false 0%float e])%list).
Proof.
  intros Hg Hbn Ha Hx Hd.
  rewrite (forward_single_element_branch g x s d rest Ha Hx Hd).
  pose proof (forward_single_element_frame g bn x s) as Hrun.
  destruct (forward_single_element_cases g bn x s Hg)
    as [[err Herr] | (cls & fields & rm & rv & w & b & e & Hm & Hrm & Hrv & Hw & Hb & He)].
  - split; [rewrite Herr; reflexivity|]. split.
    + exists []. rewrite Herr, app_nil_r. split; [reflexivity | constructor].
    + intros cls fields rm rv w b e Hm Hrm Hrv Hw Hb He.
      exact (proj2 (Hrun cls fields rm rv w b e Hg Hbn Hm Hrm Hrv Hw Hb He)).
  - destruct (Hrun cls fields rm rv w b e Hg Hbn Hm Hrm Hrv Hw Hb He) as [Hd' Ht].
    split; [exact Hd'|]. split.
    + eexists. split; [exact Ht|]. constructor; [|constructor].
      unfold eval_call. eauto 10.
    + intros cls' fields' rm' rv' w' b' e' Hm' Hrm' Hrv' Hw' Hb' He'.
      exact (proj2 (Hrun cls' fields' rm' rv' w' b' e' Hg Hbn Hm' Hrm' Hrv' Hw' Hb' He')).
Qed.

End Properties.

(** * The model run on concrete calls *)

Section Runs.
Import Shapes.
Local Existing Instance framework.

Lemma batch_norm_eval : eval_mode_preserves_stats batch_norm.
Proof.
  intros x rm rv w b mom e out rm' rv'. unfold batch_norm.
  destruct rm; try discriminate; destruct rv; try discriminate;
    intros [= _ <- <-]; split; reflexivity.
Qed.

Lemma pair_fst_snd {A B} (p : A * B) (a : A) : fst p = a -> p = (a, snd p).
Proof. intros <-. destruct p; reflexivity. Qed.

Lemma built_default_init :
  __init__ with_Linear args_default blank = (Ok tt, built_default).
Proof. apply pair_fst_snd. vm_compute. reflexivity. Qed.

Lemma built_single_init :
  __init__ with_Linear args_single blank = (Ok tt, built_single).
Proof. apply pair_fst_snd. vm_compute. reflexivity. Qed.

Lemma built_default_module : self_dict built_default !! "module" = None.
Proof. vm_compute. reflexivity. Qed.

Lemma built_single_module : self_dict built_single !! "module" = None.
Proof. vm_compute. reflexivity. Qed.

Lemma built_default_flag :
  self_dict built_default !! "allow_single_element" = Some (VBool false).
Proof. vm_compute. reflexivity. Qed.

Lemma built_single_flag :
  self_dict built_single !! "allow_single_element" = Some (VBool true).
Proof. vm_compute. reflexivity. Qed.

Lemma patched_default_module : self_dict patched_default !! "module" = Some bn16.
Proof. apply lookup_insert_eq. Qed.

Lemma patched_single_module : self_dict patched_single !! "module" = Some bn16.
Proof. apply lookup_insert_eq. Qed.

Lemma patched_default_flag :
  self_dict patched_default !! "allow_single_element" = Some (VBool false).
Proof. vm_compute. reflexivity. Qed.

Lemma patched_single_flag :
  self_dict patched_single !! "allow_single_element" = Some (VBool true).
Proof. vm_compute. reflexivity. Qed.

Lemma with_Linear_torch : with_Linear !! "torch" = Some (GTorch batch_norm).
Proof. reflexivity. Qed.

(** C2. [HeteroNorm(16, "BatchNorm", graph_meta)] passes both checks and
    then raises [NameError] for [Linear]: the object is left with
    [in_channels] only, and no sub-module has been built. *)
Theorem init_default_NameError :
  valid_args args_default = true /\
  __init__ module_globals args_default blank =
    (Raise (NameError "Linear"),
     {| self_dict := <["in_channels" := VInt 16]> (<["training" := VBool true]> ∅);
        trace := [] |}).
Proof.
  assert (Hv : valid_args args_default = true) by (vm_compute; reflexivity).
  split; [exact Hv|]. exact (init_valid_NameError args_default blank Hv).
Qed.

(** C1. On the object [__init__] builds once [Linear] resolves, [forward]
    raises [AttributeError] for [module] in both branches: with one row and
    [allow_single_element=True] no batch normalisation is returned, and
    with 32 rows nothing is delegated to.  On the object the call leaves
    under the module's own namespace, [forward] raises at the first
    attribute it reads. *)
Theorem forward_on_built_object :
  __init__ with_Linear args_single blank = (Ok tt, built_single) /\
  self_dict built_single !! "hetero_linear" = Some dispatcher /\
  forward with_Linear [1; 16] built_single =
    (Raise (AttributeError "module"), built_single) /\
  forward with_Linear [32; 16] built_single =
    (Raise (AttributeError "module"), built_single) /\
  forward module_globals [1; 16] left_single =
    (Raise (AttributeError "allow_single_element"), left_single).
Proof.
  split; [exact built_single_init|].
  split; [vm_compute; reflexivity|]. split; [|split].
  - rewrite (forward_single_element_branch with_Linear [1; 16] built_single 1 [16]
               built_single_flag eq_refl ltac:(lia)).
    exact (forward_single_element_unbound with_Linear batch_norm [1; 16] built_single
             with_Linear_torch built_single_module).
  - rewrite (forward_delegate_branch with_Linear [32; 16] built_single).
    + exact (forward_delegate_unbound [32; 16] built_single built_single_module).
    + right. split; [exact built_single_flag|]. exists 32, [16]. split; [reflexivity | lia].
  - apply forward_unbound_flag. vm_compute. reflexivity.
Qed.

(** C6. [forward] never reaches the dispatcher held by [hetero_linear]:
    on the built object it raises before any call, and once a single
    [BatchNorm1d] is bound to [module] it is that one module that is
    called, on the whole input. *)
Theorem forward_bypasses_dispatcher :
  self_dict built_default !! "hetero_linear" = Some dispatcher /\
  forward with_Linear [32; 16] built_default =
    (Raise (AttributeError "module"), built_default) /\
  fst (forward with_Linear [32; 16] patched_default) = Ok (VTensor [32; 16]) /\
  trace (snd (forward with_Linear [32; 16] patched_default)) =
    (trace patched_default ++ [EvCall bn16 [VTensor [32; 16]]])%list.
Proof.
  split; [vm_compute; reflexivity|]. split.
  - rewrite (forward_delegate_branch with_Linear [32; 16] built_default
               (or_introl built_default_flag)).
    exact (forward_delegate_unbound [32; 16] built_default built_default_module).
  - rewrite (forward_delegate_branch with_Linear [32; 16] patched_default
               (or_introl patched_default_flag)).
    rewrite (@forward_delegate_bound framework [32; 16] patched_default bn16
               patched_default_module).
    split; reflexivity.
Qed.

(** *** The general statements at concrete calls *)

#[warnings="-inexact-float"]
Lemma forward_single_element_eval_run :
  self_dict (snd (forward with_Linear [1; 16] patched_single))
    = self_dict patched_single /\
  trace (snd (forward with_Linear [1; 16] patched_single)) =
    (trace patched_single ++
       [EvBatchNorm (VTensor [1; 16]) (VTensor [16]) (VTensor [16]) (VTensor [16])
          (VTensor [16]) false 0%float (VFloat 1e-5%float)])%list.
Proof.
  pose proof (@forward_single_element_eval framework with_Linear batch_norm [1; 16]
                patched_single 1 [16] with_Linear_torch batch_norm_eval
                patched_single_flag eq_refl ltac:(lia)) as (Hd & _ & Ht).
  split; [exact Hd|].
  refine (Ht "BatchNorm1d" _ _ _ _ _ _ patched_single_module _ _ _ _ _);
    vm_compute; reflexivity.
Defined.

Lemma init_validates_first_run :
  valid_args args_group = false /\
  valid_args args_untracked = false /\
  (exists msg,
     __init__ with_Linear args_group blank
       = (Raise (ValueError msg), snd (Module_init blank))) /\
  (exists msg,
     __init__ with_Linear args_untracked blank
       = (Raise (ValueError msg), snd (Module_init blank))).
Proof.
  assert (Hg : valid_args args_group = false) by (vm_compute; reflexivity).
  assert (Hu : valid_args args_untracked = false) by (vm_compute; reflexivity).
  split; [exact Hg|]. split; [exact Hu|]. split.
  - destruct (init_validates_first with_Linear args_group blank Hg)
      as (msg & H & _). exists msg. exact H.
  - destruct (init_validates_first with_Linear args_untracked blank Hu)
      as (msg & H & _). exists msg. exact H.
Defined.

Lemma init_then_AttributeError_run :
  __init__ with_Linear args_default blank = (Ok tt, built_default) /\
  reset_parameters built_default = (Raise (AttributeError "module"), built_default) /\
  __repr__ built_default = (Raise (AttributeError "module"), built_default) /\
  forward with_Linear [32; 16] built_default
    = (Raise (AttributeError "module"), built_default).
Proof.
  destruct (init_then_AttributeError with_Linear args_default (Ok tt) built_default
              built_default_init) as (Hr & Hp & Hf).
  split; [exact built_default_init|]. split; [exact Hr|]. split; [exact Hp|].
  apply (Hf eq_refl with_Linear [32; 16]). left. reflexivity.
Defined.

Lemma forward_empty_batch_run :
  forward_guard [0; 16] patched_single = (Ok true, patched_single) /\
  forward with_Linear [0; 16] patched_single
    = forward_single_element with_Linear [0; 16] patched_single.
Proof.
  exact (@forward_empty_batch framework with_Linear [0; 16] patched_single [16]
           patched_single_flag eq_refl).
Defined.

Lemma init_reads_three_arguments_run :
  fst (__init__ with_Linear args_default blank) = Ok tt /\
  __init__ with_Linear args_default blank = __init__ with_Linear args_layer blank.
Proof.
  split; [vm_compute; reflexivity|].
  refine (proj1 (init_reads_three_arguments with_Linear args_default args_layer blank
                   _ _ _ _ _)); vm_compute; reflexivity.
Defined.

End Runs.

(** * Further properties *)

(** ** The string check *)

Lemma capital_of_lower (c d : ascii) :
  is_lower_letter d = true -> ascii_lower c = d -> c = d \/ c = ascii_upper d.
Proof.
  intros Hd <-.
  destruct c as [[] [] [] [] [] [] [] []]; vm_compute in Hd; try discriminate Hd;
    first [left; reflexivity | right; reflexivity].
Qed.

Lemma lower_capitalization (s name : string) :
  str_forall is_lower_letter name = true -> str_map ascii_lower s = name ->
  capitalization s name.
Proof.
  revert name. induction s as [|c s IH]; intros [|d name] Hn Hs; simpl in *;
    try discriminate Hs; [exact I|].
  apply andb_prop in Hn as [Hd Hn]. injection Hs as Hc Hs.
  split; [exact (capital_of_lower c d Hd Hc) | exact (IH name Hn Hs)].
Qed.

Lemma messages_differ : norm_type_msg <> single_element_msg.
Proof. intros H. vm_compute in H. discriminate H. Qed.

Section Further.
Context {fw : Framework}.

(** X1. For a [norm_type] of ASCII characters, [__init__] raises the
    norm-type [ValueError] exactly when [norm_type] is none of the three
    names in any mix of upper and lower case. *)
Theorem init_norm_type_error_iff (a : init_args) (s : state) :
  str_forall is_ascii (norm_type a) = true ->
  (fst (__init__ module_globals a s) = Raise (ValueError norm_type_msg) <->
   ~ exists name, In name norm_types /\ capitalization (norm_type a) name).
Proof.
  intros Hascii.
  assert (Hok : norm_type_ok a = true <->
                exists name, In name norm_types /\ capitalization (norm_type a) name).
  { unfold norm_type_ok. rewrite str_in_In. unfold str_lower. rewrite Hascii. split.
    - intros Hin. eexists. split; [exact Hin|].
      apply lower_capitalization; [exact (norm_types_lower _ Hin) | reflexivity].
    - intros (name & Hin & Hcap).
      destruct (capitalization_lower _ _ (norm_types_lower _ Hin) Hcap) as [_ ->].
      exact Hin. }
  rewrite <- Hok. destruct (valid_args a) eqn:Hv.
  - rewrite (init_valid_NameError a s Hv). cbn [fst].
    apply valid_args_true in Hv as [Hn _]. rewrite Hn. split; [discriminate | congruence].
  - rewrite (init_invalid _ a s Hv). cbn [fst].
    destruct (norm_type_ok a); split; try congruence.
    intros H. exfalso. apply messages_differ. congruence.
Qed.

(** X2. [__init__] raises the single-element [ValueError] exactly when the
    norm type is accepted, [allow_single_element] is true and
    [track_running_stats] is false: a call that fails both checks gets the
    norm-type error. *)
Theorem init_single_element_error_iff (a : init_args) (s : state) :
  fst (__init__ module_globals a s) = Raise (ValueError single_element_msg) <->
  norm_type_ok a = true /\ allow_single_element a = true /\
  track_running_stats a = false.
Proof.
  destruct (valid_args a) eqn:Hv.
  - rewrite (init_valid_NameError a s Hv). cbn [fst].
    apply valid_args_true in Hv as [Hn Hs]. split; [discriminate|].
    intros (_ & Ha & Ht). rewrite Ha, Ht in Hs. discriminate Hs.
  - rewrite (init_invalid _ a s Hv). cbn [fst]. unfold valid_args in Hv.
    destruct (norm_type_ok a); simpl in Hv.
    + apply negb_false_iff, andb_prop in Hv as [Ha Ht]. apply negb_true_iff in Ht.
      split; auto.
    + split; [|intros (H & _); discriminate H].
      intros H. exfalso. apply messages_differ. congruence.
Qed.

(** X3. In a namespace where [Linear] and [ToHeteroLinear] are classes
    whose constructors succeed, a call that passes the checks returns:
    [Linear(in_channels, in_channels)] is built, then
    [ToHeteroLinear] on it and the metadata, in that order, and the object
    holds [in_channels], the dispatcher as [hetero_linear], and
    [allow_single_element]. *)
Theorem init_builds (g : gmap string gobj) (a : init_args) (s : state)
    (lin thl : list val -> result val) (l hl : val) :
  valid_args a = true ->
  g !! "Linear" = Some (GClass lin) ->
  g !! "ToHeteroLinear" = Some (GClass thl) ->
  lin [VInt (in_channels a); VInt (in_channels a)] = Ok l ->
  thl [l; VMeta (metadata a)] = Ok hl ->
  __init__ g a s =
    (Ok tt,
     {| self_dict :=
          <["allow_single_element" := VBool (allow_single_element a)]>
            (<["hetero_linear" := hl]>
               (<["in_channels" := VInt (in_channels a)]>
                  (<["training" := VBool true]> (self_dict s))));
        trace :=
          (trace s ++
             [EvNew "Linear" [VInt (in_channels a); VInt (in_channels a)];
              EvNew "ToHeteroLinear" [l; VMeta (metadata a)]])%list |}).
Proof.
  intros Hv Hlin Hthl Hl Hhl. rewrite (init_valid g a s Hv). unfold construct.
  rewrite Hthl, Hlin, Hl, Hhl. unfold logged, after_super. cbn [self_dict trace].
  rewrite <- app_assoc. reflexivity.
Qed.

(** X4. When one of the two constructors of line 45 raises, [__init__]
    raises the same exception and leaves the object half built:
    [in_channels] is assigned, [hetero_linear] and [allow_single_element]
    are as they were before the call. *)
Theorem init_constructor_raises (g : gmap string gobj) (a : init_args) (s : state)
    (lin thl : list val -> result val) (e : exn) :
  valid_args a = true ->
  g !! "Linear" = Some (GClass lin) ->
  g !! "ToHeteroLinear" = Some (GClass thl) ->
  (lin [VInt (in_channels a); VInt (in_channels a)] = Raise e \/
   exists l, lin [VInt (in_channels a); VInt (in_channels a)] = Ok l /\
             thl [l; VMeta (metadata a)] = Raise e) ->
  fst (__init__ g a s) = Raise e /\
  self_dict (snd (__init__ g a s)) =
    <["in_channels" := VInt (in_channels a)]>
      (<["training" := VBool true]> (self_dict s)).
Proof.
  intros Hv Hlin Hthl Hraise. rewrite (init_valid g a s Hv). unfold construct.
  rewrite Hthl, Hlin. destruct Hraise as [Hl | (l & Hl & Hhl)].
  - rewrite Hl. split; reflexivity.
  - rewrite Hl, Hhl. split; reflexivity.
Qed.

End Further.

(** ** What the methods leave alone *)

Section Frame.
Context {fw : Framework}.

Lemma same_but_module_refl (s : state) : same_but_module s s.
Proof. split; [reflexivity | tauto]. Qed.

Lemma same_but_module_trans (s1 s2 s3 : state) :
  same_but_module s1 s2 -> same_but_module s2 s3 -> same_but_module s1 s3.
Proof.
  intros [H1 H1'] [H2 H2']. split.
  - intros name Hn. rewrite (H2 name Hn). exact (H1 name Hn).
  - tauto.
Qed.

Lemma touches_ret {A} (a : A) : touches_only_module (ret a).
Proof. intros s. apply same_but_module_refl. Qed.

Lemma touches_raise {A} (e : exn) : touches_only_module (@raise _ A e).
Proof. intros s. apply same_but_module_refl. Qed.

Lemma touches_lift {A} (r : result A) : touches_only_module (lift r).
Proof. intros s. apply same_but_module_refl. Qed.

Lemma touches_emit (e : event) : touches_only_module (emit e).
Proof. intros s. split; [reflexivity | tauto]. Qed.

Lemma touches_getattr_self (n : string) : touches_only_module (getattr_self n).
Proof.
  intros s. unfold getattr_self. destruct (self_dict s !! n);
    apply same_but_module_refl.
Qed.

Lemma touches_load_global (g : gmap string gobj) (n : string) :
  touches_only_module (load_global g n).
Proof.
  intros s. unfold load_global. destruct (g !! n); apply same_but_module_refl.
Qed.

Lemma touches_alter (f : val -> val) :
  touches_only_module
    (fun s => (Ok tt, {| self_dict := alter f "module" (self_dict s);
                         trace := trace s |})).
Proof.
  intros s. split; cbn [snd self_dict].
  - intros name Hn. apply lookup_alter_ne. congruence.
  - rewrite lookup_alter_eq. rewrite fmap_is_Some. tauto.
Qed.

Lemma touches_bind {A B} (m : py A) (k : A -> py B) :
  touches_only_module m -> (forall a, touches_only_module (k a)) ->
  touches_only_module (bind m k).
Proof.
  intros Hm Hk s. unfold bind. specialize (Hm s).
  destruct (m s) as [[a|e] s']; cbn [snd] in *; [|exact Hm].
  exact (same_but_module_trans _ _ _ Hm (Hk a s')).
Qed.

Ltac touches :=
  repeat first
    [ apply touches_ret | apply touches_raise | apply touches_lift
    | apply touches_emit | apply touches_load_global
    | apply touches_getattr_self | apply touches_alter
    | apply touches_bind; [| intros ?]
    | match goal with
      | |- touches_only_module (if ?c then _ else _) => destruct c
      | |- touches_only_module (match ?t with _ => _ end) => destruct t
      end ].

Lemma read_only_ret {A} (a : A) : read_only (ret a).
Proof. intros s. reflexivity. Qed.

Lemma read_only_lift {A} (r : result A) : read_only (lift r).
Proof. intros s. reflexivity. Qed.

Lemma read_only_getattr_self (n : string) : read_only (getattr_self n).
Proof. intros s. unfold getattr_self. destruct (self_dict s !! n); reflexivity. Qed.

Lemma read_only_bind {A B} (m : py A) (k : A -> py B) :
  read_only m -> (forall a, read_only (k a)) -> read_only (bind m k).
Proof.
  intros Hm Hk s. unfold bind. specialize (Hm s).
  destruct (m s) as [[a|e] s']; cbn [snd] in *; subst s'; [apply Hk | reflexivity].
Qed.

Ltac reads :=
  repeat first
    [ apply read_only_ret | apply read_only_lift | apply read_only_getattr_self
    | apply read_only_bind; [| intros ?]
    | match goal with
      | |- read_only (if ?c then _ else _) => destruct c
      end ].


Lemma alter_bound_insert (d : gmap string val) (k : string) (v w : val) :
  d !! k = Some v -> alter (fun _ => w) k d = <[k := w]> d.
Proof.
  intros H. apply map_eq. intros i. destruct (decide (k = i)) as [<- | Hne].
  - rewrite lookup_alter_eq, lookup_insert_eq, H. reflexivity.
  - rewrite lookup_alter_ne, lookup_insert_ne by exact Hne. reflexivity.
Qed.

(** [torch.nn.functional.batch_norm] cannot be reached: the name [torch]
    is unbound or is not the package. *)
Lemma forward_single_element_no_torch (g : gmap string gobj) (x : Tensor) (s : state) :
  (forall bn, g !! "torch" <> Some (GTorch bn)) ->
  exists err, forward_single_element g x s = (Raise err, s).
Proof.
  intros Hg. unfold forward_single_element, load_batch_norm, load_global, bind.
  destruct (g !! "torch") as [[bn| |]|]; try (eexists; reflexivity).
  destruct (Hg bn eq_refl).
Qed.

(** X5. [forward] assigns no attribute: after the call every attribute
    other than [module] reads as before, and [module] is bound exactly when
    it was (the object it holds may have been updated by the call made on
    it). *)
Theorem forward_touches_only_module (g : gmap string gobj) (x : Tensor) (s : state) :
  (forall name, name <> "module" ->
     self_dict (snd (forward g x s)) !! name = self_dict s !! name) /\
  (is_Some (self_dict (snd (forward g x s)) !! "module") <->
   is_Some (self_dict s !! "module")).
Proof.
  assert (H : touches_only_module (forward g x)).
  { unfold forward, forward_guard, forward_single_element, forward_delegate,
      load_batch_norm, update_stats, mutate_self.
    touches. }
  exact (H s).
Qed.


(** X7. [__repr__] changes nothing, whatever it returns.  On an object
    whose [module] holds [num_features] it returns ["HeteroNorm("], the
    formatted number and [")"]; when [module] holds an object without
    [num_features] it raises [AttributeError] for that name. *)
Theorem repr_reads (s : state) :
  snd (__repr__ s) = s /\
  (forall cls fields n t,
     self_dict s !! "module" = Some (VObj cls fields) ->
     fields !! "num_features" = Some n -> format_value n = Ok t ->
     fst (__repr__ s) = Ok ("HeteroNorm(" ++ t ++ ")")) /\
  (forall cls fields,
     self_dict s !! "module" = Some (VObj cls fields) ->
     fields !! "num_features" = None ->
     fst (__repr__ s) = Raise (AttributeError "num_features")).
Proof.
  split; [|split].
  - assert (H : read_only __repr__) by (unfold __repr__; reads). exact (H s).
  - intros cls fields n t Hm Hn Ht. unfold __repr__.
    rewrite (bind_ok _ _ _ _ _ (getattr_self_bound _ _ _ Hm)).
    unfold bind, lift, ret. simpl. rewrite Hn, Ht. reflexivity.
  - intros cls fields Hm Hn. unfold __repr__.
    rewrite (bind_ok _ _ _ _ _ (getattr_self_bound _ _ _ Hm)).
    unfold bind, lift. simpl. rewrite Hn. reflexivity.
Qed.

(** X8. Outside the single-element case, on an object whose [module] is
    bound, [forward] is the call [self.module(x)]: it returns what the call
    returns or raises what it raises, the call is the one call made, and
    [module] holds the object as the call left it.  With
    [allow_single_element] false this holds for every [x]: the shape of [x]
    is not looked at. *)
Theorem forward_delegates (g : gmap string gobj) (x : Tensor) (s : state) (m : val) :
  large_or_disabled x s ->
  self_dict s !! "module" = Some m ->
  fst (forward g x s) = returned (call_obj m [VTensor x]) /\
  trace (snd (forward g x s)) = (trace s ++ [EvCall m [VTensor x]])%list /\
  (forall out m',
     call_obj m [VTensor x] = Ok (out, m') ->
     self_dict (snd (forward g x s)) = <["module" := m']> (self_dict s)).
Proof.
  intros Hx Hm. rewrite (forward_delegate_branch g x s Hx).
  rewrite (forward_delegate_bound x s m Hm).
  destruct (call_obj m [VTensor x]) as [[out m']|err]; cbn [fst snd self_dict trace returned].
  - repeat split. intros out' m'' [= <- <-]. exact (alter_bound_insert _ _ _ _ Hm).
  - repeat split. intros out m' H. discriminate H.
Qed.

(** X9. In the single-element case, on an object whose [module] holds the
    five attributes the call reads, [forward] returns what the functional
    batch normalisation returns for [x], those attributes, [training=False]
    and [momentum=0.0], or raises what it raises. *)
Theorem forward_returns_batch_norm (g : gmap string gobj) (bn : bn_sig)
    (x : Tensor) (s : state) (d : Z) (rest : list Z) (cls : string)
    (fields : gmap string val) (rm rv w b e : val) :
  g !! "torch" = Some (GTorch bn) ->
  self_dict s !! "allow_single_element" = Some (VBool true) ->
  tshape x = d :: rest -> d <= 1 ->
  self_dict s !! "module" = Some (VObj cls fields) ->
  fields !! "running_mean" = Some rm -> fields !! "running_var" = Some rv ->
  fields !! "weight" = Some w -> fields !! "bias" = Some b ->
  fields !! "eps" = Some e ->
  fst (forward g x s) =
    match bn (VTensor x) rm rv w b false 0%float e with
    | Ok (out, _, _) => Ok out
    | Raise err => Raise err
    end.
Proof.
  intros Hg Ha Hx Hd Hm Hrm Hrv Hw Hb He.
  rewrite (forward_single_element_branch g x s d rest Ha Hx Hd).
  rewrite (forward_single_element_bound g bn x s cls fields rm rv w b e
             Hg Hm Hrm Hrv Hw Hb He).
  destruct (bn _ _ _ _ _ _ _ _) as [[[out rm'] rv']|err]; reflexivity.
Qed.

(** X10. With [allow_single_element] true, a tensor without dimensions
    makes [forward] raise [IndexError] at [x.size(0)], before [self.module]
    is read and without any change. *)
Theorem forward_scalar_tensor (g : gmap string gobj) (x : Tensor) (s : state) :
  self_dict s !! "allow_single_element" = Some (VBool true) ->
  tshape x = [] ->
  exists msg, forward g x s = (Raise (IndexError msg), s).
Proof.
  intros Ha Hx. eexists. unfold forward, forward_guard.
  apply bind_raise. rewrite (bind_ok _ _ _ _ _ (getattr_self_bound _ _ _ Ha)).
  unfold bind, lift, size0. simpl. rewrite Hx. reflexivity.
Qed.

(** X11. The single-element case is repeatable: the framework leaving the
    statistics alone in evaluation mode, a second [forward] on the same [x]
    returns what the first returned. *)
Theorem forward_single_element_repeatable (g : gmap string gobj) (bn : bn_sig)
    (x : Tensor) (s : state) (d : Z) (rest : list Z) :
  g !! "torch" = Some (GTorch bn) ->
  eval_mode_preserves_stats bn ->
  self_dict s !! "allow_single_element" = Some (VBool true) ->
  tshape x = d :: rest -> d <= 1 ->
  fst (forward g x (snd (forward g x s))) = fst (forward g x s).
Proof.
  intros Hg Hbn Ha Hx Hd.
  rewrite (forward_single_element_branch g x s d rest Ha Hx Hd).
  destruct (forward_single_element_cases g bn x s Hg)
    as [[err Herr] | (cls & fields & rm & rv & w & b & e & Hm & Hrm & Hrv & Hw & Hb & He)].
  - rewrite Herr. cbn [snd].
    rewrite (forward_single_element_branch g x s d rest Ha Hx Hd), Herr. reflexivity.
  - destruct (forward_single_element_frame g bn x s cls fields rm rv w b e
                Hg Hbn Hm Hrm Hrv Hw Hb He) as [Hsame _].
    set (s1 := snd (forward_single_element g x s)) in *.
    assert (Ha1 : self_dict s1 !! "allow_single_element" = Some (VBool true))
      by (rewrite Hsame; exact Ha).
    assert (Hm1 : self_dict s1 !! "module" = Some (VObj cls fields))
      by (rewrite Hsame; exact Hm).
    rewrite (forward_single_element_branch g x s1 d rest Ha1 Hx Hd).
    rewrite (forward_single_element_bound g bn x s1 cls fields rm rv w b e
               Hg Hm1 Hrm Hrv Hw Hb He).
    rewrite (forward_single_element_bound g bn x s cls fields rm rv w b e
               Hg Hm Hrm Hrv Hw Hb He).
    destruct (bn _ _ _ _ _ _ _ _) as [[[out rm'] rv']|err]; reflexivity.
Qed.

(** X12. On an object whose [module] is bound, [reset_parameters] makes
    the one call [self.module.reset_parameters()] without arguments,
    returns [None] whatever the call returns, raises what it raises, and
    leaves every other attribute as it was. *)
Theorem reset_parameters_bound (s : state) (m : val) :
  self_dict s !! "module" = Some m ->
  reset_parameters s =
    match invoke m "reset_parameters" [] with
    | Ok (_, m') =>
        (Ok VNone,
         {| self_dict := <["module" := m']> (self_dict s);
            trace := trace s ++ [EvInvoke m "reset_parameters" []] |})
    | Raise e => (Raise e, logged (EvInvoke m "reset_parameters" []) s)
    end.
Proof.
  intros Hm. unfold reset_parameters.
  rewrite (bind_ok _ _ _ _ _ (getattr_self_bound _ _ _ Hm)).
  unfold bind, emit, lift, mutate_self, ret, logged. cbn [fst snd self_dict trace].
  destruct (invoke m "reset_parameters" []) as [[r m']|e]; [|reflexivity].
  cbn [snd self_dict trace]. rewrite (alter_bound_insert _ _ _ _ Hm). reflexivity.
Qed.

(** X13. In the single-element case, when [module] holds an object that
    lacks one of [running_mean], [running_var], [weight], [bias], [eps],
    [forward] raises [AttributeError] for the first one missing in that
    order; no call is made and nothing changes. *)
Theorem forward_missing_statistic (g : gmap string gobj) (bn : bn_sig)
    (x : Tensor) (s : state) (d : Z) (rest : list Z) (cls : string)
    (fields : gmap string val) (n : string) :
  g !! "torch" = Some (GTorch bn) ->
  self_dict s !! "allow_single_element" = Some (VBool true) ->
  tshape x = d :: rest -> d <= 1 ->
  self_dict s !! "module" = Some (VObj cls fields) ->
  first_missing fields = Some n ->
  forward g x s = (Raise (AttributeError n), s).
Proof.
  intros Hg Ha Hx Hd Hm Hn.
  rewrite (forward_single_element_branch g x s d rest Ha Hx Hd).
  assert (Hstep : forall (k : val -> py val) (a : string),
             fields !! a = None ->
             bind (getattr_self "module") (fun m' => bind (lift (getattr m' a)) k) s
             = (Raise (AttributeError a), s)).
  { intros k a Hnone. rewrite (bind_ok _ _ _ _ _ (getattr_self_bound _ _ _ Hm)).
    unfold bind, lift. simpl. rewrite Hnone. reflexivity. }
  assert (Hok : forall (k : val -> py val) (a : string) (v : val),
             fields !! a = Some v ->
             bind (getattr_self "module") (fun m' => bind (lift (getattr m' a)) k) s
             = k v s).
  { intros k a v Hsome. rewrite (bind_ok _ _ _ _ _ (getattr_self_bound _ _ _ Hm)).
    unfold bind, lift. simpl. rewrite Hsome. reflexivity. }
  unfold forward_single_element.
  rewrite (bind_ok _ _ _ _ _ (load_batch_norm_bound g bn s Hg)).
  unfold first_missing, stat_names in Hn. cbn [find] in Hn.
  destruct (fields !! "running_mean") as [rm|] eqn:Hrm;
    [rewrite (Hok _ _ rm Hrm) | injection Hn as <-; exact (Hstep _ _ Hrm)].
  destruct (fields !! "running_var") as [rv|] eqn:Hrv;
    [rewrite (Hok _ _ rv Hrv) | injection Hn as <-; exact (Hstep _ _ Hrv)].
  destruct (fields !! "weight") as [w|] eqn:Hw;
    [rewrite (Hok _ _ w Hw) | injection Hn as <-; exact (Hstep _ _ Hw)].
  destruct (fields !! "bias") as [b|] eqn:Hb;
    [rewrite (Hok _ _ b Hb) | injection Hn as <-; exact (Hstep _ _ Hb)].
  destruct (fields !! "eps") as [e|] eqn:He;
    [discriminate Hn | injection Hn as <-; exact (Hstep _ _ He)].
Qed.

End Frame.

(** ** The further statements at concrete calls *)

Section FurtherRuns.
Import Shapes MoreShapes.
Local Existing Instance framework.

Lemma layer_patched_module : self_dict layer_patched !! "module" = Some ln16.
Proof. apply lookup_insert_eq. Qed.

Lemma layer_patched_flag :
  self_dict layer_patched !! "allow_single_element" = Some (VBool true).
Proof. vm_compute. reflexivity. Qed.

Lemma init_norm_type_error_iff_run :
  str_forall is_ascii (norm_type args_group) = true /\
  (fst (__init__ module_globals args_group blank) = Raise (ValueError norm_type_msg) <->
   ~ exists name, In name norm_types /\ capitalization (norm_type args_group) name).
Proof.
  assert (H : str_forall is_ascii (norm_type args_group) = true)
    by (vm_compute; reflexivity).
  split; [exact H|].
  exact (@init_norm_type_error_iff framework args_group blank H).
Defined.

Lemma init_builds_run :
  valid_args args_default = true /\
  __init__ with_Linear args_default blank =
    (Ok tt,
     {| self_dict :=
          <["allow_single_element" := VBool false]>
            (<["hetero_linear" := dispatcher]>
               (<["in_channels" := VInt 16]>
                  (<["training" := VBool true]> ∅)));
        trace :=
          [EvNew "Linear" [VInt 16; VInt 16];
           EvNew "ToHeteroLinear"
             [VObj "Linear" {[ "in_channels" := VInt 16; "out_channels" := VInt 16 ]};
              VMeta graph_meta]] |}).
Proof.
  assert (Hv : valid_args args_default = true) by (vm_compute; reflexivity).
  split; [exact Hv|].
  exact (@init_builds framework with_Linear args_default blank linear to_hetero_linear
           (VObj "Linear" {[ "in_channels" := VInt 16; "out_channels" := VInt 16 ]})
           dispatcher Hv eq_refl eq_refl eq_refl eq_refl).
Defined.

Lemma init_constructor_raises_run :
  valid_args args_negative = true /\
  fst (__init__ with_strict_Linear args_negative blank) =
    Raise (RuntimeError "Trying to create tensor with negative dimension") /\
  self_dict (snd (__init__ with_strict_Linear args_negative blank)) =
    <["in_channels" := VInt (-1)]> (<["training" := VBool true]> ∅).
Proof.
  assert (Hv : valid_args args_negative = true) by (vm_compute; reflexivity).
  split; [exact Hv|].
  exact (@init_constructor_raises framework with_strict_Linear args_negative blank
           strict_linear to_hetero_linear _ Hv eq_refl eq_refl (or_introl eq_refl)).
Defined.

Lemma forward_delegates_run :
  fst (forward with_Linear [32; 16] patched_default) = Ok (VTensor [32; 16]) /\
  trace (snd (forward with_Linear [32; 16] patched_default)) =
    (trace patched_default ++ [EvCall bn16 [VTensor [32; 16]]])%list.
Proof.
  destruct (@forward_delegates framework with_Linear [32; 16] patched_default bn16
              (or_introl patched_default_flag) patched_default_module)
    as (Hr & Ht & _).
  split; [exact Hr | exact Ht].
Defined.

Lemma forward_returns_batch_norm_run :
  fst (forward with_Linear [1; 16] patched_single) = Ok (VTensor [1; 16]).
Proof.
  refine (@forward_returns_batch_norm framework with_Linear batch_norm [1; 16]
            patched_single 1 [16] "BatchNorm1d" _ (VTensor [16]) (VTensor [16])
            (VTensor [16]) (VTensor [16]) (VFloat eps16)
            with_Linear_torch patched_single_flag eq_refl (Z.le_refl 1)
            patched_single_module _ _ _ _ _); vm_compute; reflexivity.
Defined.

Lemma forward_scalar_tensor_run :
  exists msg, forward with_Linear [] patched_single = (Raise (IndexError msg), patched_single).
Proof.
  exact (@forward_scalar_tensor framework with_Linear [] patched_single
           patched_single_flag eq_refl).
Defined.

Lemma forward_single_element_repeatable_run :
  fst (forward with_Linear [1; 16] (snd (forward with_Linear [1; 16] patched_single)))
    = fst (forward with_Linear [1; 16] patched_single).
Proof.
  exact (@forward_single_element_repeatable framework with_Linear batch_norm [1; 16]
           patched_single 1 [16] with_Linear_torch batch_norm_eval
           patched_single_flag eq_refl (Z.le_refl 1)).
Defined.

Lemma reset_parameters_bound_run :
  reset_parameters patched_default =
    (Ok VNone,
     {| self_dict := <["module" := bn16]> (self_dict patched_default);
        trace := trace patched_default ++ [EvInvoke bn16 "reset_parameters" []] |}).
Proof.
  exact (@reset_parameters_bound framework patched_default bn16 patched_default_module).
Defined.

Lemma forward_missing_statistic_run :
  forward with_Linear [1; 16] layer_patched
    = (Raise (AttributeError "running_mean"), layer_patched).
Proof.
  refine (@forward_missing_statistic framework with_Linear batch_norm [1; 16]
            layer_patched 1 [16] "LayerNorm" _ "running_mean"
            with_Linear_torch layer_patched_flag eq_refl (Z.le_refl 1)
            layer_patched_module _).
  vm_compute. reflexivity.
Defined.

End FurtherRuns.

(** ** The single-element case on the object [__init__] builds *)

Section Built.
Context {fw : Framework}.

(** C4. In the single-element case, on the object a returned [__init__]
    leaves, the functional batch normalisation is not called and no
    running statistic is read: the object has no [module], so [forward]
    raises, with the object and the trace of calls as they were; where
    [torch] is the package, the exception is [AttributeError] for
    [module]. *)
Theorem forward_single_element_on_built (g g' : gmap string gobj) (a : init_args)
    (s' : state) (x : Tensor) (d : Z) (rest : list Z) :
  __init__ g a blank = (Ok tt, s') ->
  allow_single_element a = true ->
  tshape x = d :: rest -> d <= 1 ->
  self_dict s' !! "module" = None /\
  (exists err, forward g' x s' = (Raise err, s')) /\
  (forall bn, g' !! "torch" = Some (GTorch bn) ->
     forward g' x s' = (Raise (AttributeError "module"), s')).
Proof.
  intros Hinit Hase Hx Hd.
  assert (Hm : self_dict s' !! "module" = None).
  { rewrite (init_module g a blank s' _ Hinit). reflexivity. }
  assert (Ha : self_dict s' !! "allow_single_element" = Some (VBool true)).
  { destruct (valid_args a) eqn:Hv.
    - rewrite (init_valid g a blank Hv) in Hinit.
      pose proof (construct_ok _ _ _ _ _ _ Hinit) as H.
      rewrite Hase in H. exact H.
    - rewrite (init_invalid g a blank Hv) in Hinit. discriminate Hinit. }
  rewrite (forward_single_element_branch g' x s' d rest Ha Hx Hd).
  split; [exact Hm|]. split.
  - destruct (g' !! "torch") as [[bn| |]|] eqn:Ht.
    + eexists. exact (forward_single_element_unbound g' bn x s' Ht Hm).
    + apply forward_single_element_no_torch. intros bn. rewrite Ht. congruence.
    + apply forward_single_element_no_torch. intros bn. rewrite Ht. congruence.
    + apply forward_single_element_no_torch. intros bn. rewrite Ht. congruence.
  - intros bn Ht. exact (forward_single_element_unbound g' bn x s' Ht Hm).
Qed.

End Built.

Section BuiltRuns.
Import Shapes.
Local Existing Instance framework.

Lemma forward_single_element_on_built_run :
  __init__ with_Linear args_single blank = (Ok tt, built_single) /\
  self_dict built_single !! "module" = None /\
  forward module_globals [1; 16] built_single
    = (Raise (AttributeError "module"), built_single).
Proof.
  destruct (@forward_single_element_on_built framework with_Linear module_globals
              args_single built_single [1; 16] 1 [16]
              built_single_init eq_refl eq_refl (Z.le_refl 1)) as (Hm & _ & Hf).
  split; [exact built_single_init|]. split; [exact Hm|].
  exact (Hf batch_norm eq_refl).
Defined.

End BuiltRuns.
